(** * InfiniteCanvas: the coordinate transform and the pan/zoom handlers

    A shallow embedding of [src/infinitecanvas] (the [InfiniteCanvas] custom
    element): its internal properties, the two coordinate conversions, the
    setters, and the drag / pointermove / wheel handlers installed by the
    constructor.

    Numbers.  The handlers are embedded twice, over two kinds of number.

    - [Binary64] embeds them over IEEE 754 binary64 numbers (the kernel's
      primitive floats, round to nearest even), which is what a JavaScript
      number is.  Its results are the program's, bit for bit.

    - The top-level embedding is over [number]: an exact rational or one
      of the IEEE special values [Infinity], [-Infinity], [NaN], with the
      IEEE rules for the special values.  Arithmetic on finite values is
      exact there: no rounding, no overflow, no sign of zero.  It carries
      the statements that do not depend on rounding (which fields a handler
      writes, order relations, the special values) and the algebra that
      holds "in exact arithmetic". *)

From Stdlib Require Import QArith Qcanon Bool List PeanoNat Lia.
From Stdlib Require Floats.
Import ListNotations.

Set Implicit Arguments.

(* ================================================================== *)
(** ** JavaScript numbers *)

Module JSNumber.

Inductive number : Type :=
| Fin (q : Qc)
| Infinity (negative : bool)
| NaN.

Definition Qcltb (p q : Qc) : bool :=
  match (p ?= q)%Qc with Lt => true | _ => false end.

Definition Qceqb (p q : Qc) : bool :=
  match (p ?= q)%Qc with Eq => true | _ => false end.

(** A decimal literal of the source ([0], [1], [0.1], [1.1]). *)
Definition js (q : Q) : number := Fin (Q2Qc q).

(** [a + b] *)
Definition add (a b : number) : number :=
  match a, b with
  | NaN, _ | _, NaN => NaN
  | Fin p, Fin q => Fin (p + q)
  | Fin _, Infinity s => Infinity s
  | Infinity s, Fin _ => Infinity s
  | Infinity s, Infinity t => if Bool.eqb s t then Infinity s else NaN
  end.

(** [a - b] *)
Definition sub (a b : number) : number :=
  match a, b with
  | NaN, _ | _, NaN => NaN
  | Fin p, Fin q => Fin (p - q)
  | Fin _, Infinity s => Infinity (negb s)
  | Infinity s, Fin _ => Infinity s
  | Infinity s, Infinity t => if Bool.eqb s t then NaN else Infinity s
  end.

(** [a * b] *)
Definition mul (a b : number) : number :=
  match a, b with
  | NaN, _ | _, NaN => NaN
  | Fin p, Fin q => Fin (p * q)
  | Fin p, Infinity s | Infinity s, Fin p =>
      if Qceqb p 0 then NaN else Infinity (xorb s (Qcltb p 0))
  | Infinity s, Infinity t => Infinity (xorb s t)
  end.

(** [a / b] *)
Definition div (a b : number) : number :=
  match a, b with
  | NaN, _ | _, NaN => NaN
  | Fin p, Fin q =>
      if Qceqb q 0
      then (if Qceqb p 0 then NaN else Infinity (Qcltb p 0))
      else Fin (p / q)
  | Fin _, Infinity _ => Fin 0
  | Infinity s, Fin q => Infinity (xorb s (Qcltb q 0))
  | Infinity _, Infinity _ => NaN
  end.

(** [a > b] *)
Definition gtb (a b : number) : bool :=
  match a, b with
  | NaN, _ | _, NaN => false
  | Fin p, Fin q => Qcltb q p
  | Fin _, Infinity s => s
  | Infinity s, Fin _ => negb s
  | Infinity s, Infinity t => negb s && t
  end.

(** [a < b] *)
Definition ltb (a b : number) : bool := gtb b a.

(** [Math.max(a, b)]: NaN when an argument is NaN, else the larger one. *)
Definition Math_max (a b : number) : number :=
  match a, b with
  | NaN, _ | _, NaN => NaN
  | _, _ => if gtb b a then b else a
  end.

(** [Number.isFinite(a)] as a proposition. *)
Definition finite (a : number) : Prop := exists q, a = Fin q.

(** Structural equality of numbers (the SameValue comparison, not [==]:
    it holds of NaN and NaN). *)
Definition same_value (a b : number) : bool :=
  match a, b with
  | Fin p, Fin q => Qceqb p q
  | Infinity s, Infinity t => Bool.eqb s t
  | NaN, NaN => true
  | _, _ => false
  end.

End JSNumber.

Import JSNumber.

Declare Scope number_scope.
Delimit Scope number_scope with num.
Bind Scope number_scope with number.
Infix "+" := add : number_scope.
Infix "-" := sub : number_scope.
Infix "*" := mul : number_scope.
Infix "/" := div : number_scope.
Infix ">?" := gtb (at level 70) : number_scope.
Infix "<?" := ltb (at level 70) : number_scope.

(* ================================================================== *)
(** ** Abrupt completion *)

(** A call either returns or throws.  The only exception the embedded code
    can raise is the [TypeError] of reading a property of [undefined]. *)
Inductive error : Type := TypeError.

Inductive completion (A : Type) : Type :=
| normal (a : A)
| throw (e : error).
Arguments normal {A} a.
Arguments throw {A} e.

Definition bind {A B : Type} (c : completion A) (k : A -> completion B)
  : completion B :=
  match c with
  | normal a => k a
  | throw e => throw e
  end.

Notation "x <- c ;; k" := (bind c (fun x => k))
  (at level 61, c at next level, right associativity).

(* ================================================================== *)
(** ** The [vec2] package *)

Module Vec2.

(** Modelled from the spec: the [vec2] class is imported from the package
    [vec2] and is not part of the source tree.  Spec section 3: "Vector2:
    {x: float, y: float}. Mutable; supports set, translate (add deltas), add,
    subtract, scale-by-scalar", each mutating the receiver in place and
    returning it.  A method below maps the receiver's old value to its new
    value; a caller that holds the receiver in a field writes the result
    back to that field. *)
Record vec2 : Type := new_vec2 { x : number; y : number }.

Definition set (_ : vec2) (a b : number) : vec2 := new_vec2 a b.

Definition translate (v : vec2) (dx dy : number) : vec2 :=
  new_vec2 (x v + dx) (y v + dy).

Definition add (v w : vec2) : vec2 := new_vec2 (x v + x w) (y v + y w).

Definition sub (v w : vec2) : vec2 := new_vec2 (x v - x w) (y v - y w).

Definition scale (v : vec2) (k : number) : vec2 :=
  new_vec2 (x v * k) (y v * k).

(** [v.add(w)] where the argument expression may evaluate to [undefined]
    ([None]): the method reads [w.x] and [w.y], and reading a property of
    [undefined] throws a TypeError. *)
Definition add_arg (v : vec2) (w : option vec2) : completion vec2 :=
  match w with
  | Some w => normal (add v w)
  | None => throw TypeError
  end.

Definition finite (v : vec2) : Prop :=
  JSNumber.finite (x v) /\ JSNumber.finite (y v).

End Vec2.

Import Vec2(vec2, new_vec2).

(** Structural equality of vectors. *)
Definition same_vec2 (v w : vec2) : bool :=
  same_value (Vec2.x v) (Vec2.x w) && same_value (Vec2.y v) (Vec2.y w).

(* ================================================================== *)
(** ** The element *)

(** [this.__props] *)
Module Props.
Record t : Type := make
  { size : vec2;
    screen_position : vec2;
    scale : number;
    position : vec2 }.
End Props.

(** What [getBoundingClientRect()] returns. *)
Record DOMRect : Type :=
  { left : number; top : number; width : number; height : number }.

(** One [transform: translate(Xpx, Ypx) scale(S);] declaration appended to
    [canvas.style.cssText] by [update]. *)
Record transform : Type :=
  { translate_x : number; translate_y : number; scale_by : number }.

(** The fields of an [InfiniteCanvas] instance that its methods read or
    write.  [size] is the property assigned by [connectedCallback]
    ([undefined] before); [canvas_style_cssText] is the text of
    [this.canvas.style.cssText], a list of appended declarations. *)
Record InfiniteCanvas : Type :=
  { __props : Props.t;
    point : vec2;
    cursor : vec2;
    zoomFactor : number;
    size : option (number * number);
    canvas_style_cssText : list transform }.

Section Methods.

Local Open Scope number_scope.

(** The value of the element right after [constructor()]. *)
Definition constructor : InfiniteCanvas :=
  {| __props := {| Props.size := new_vec2 (js 0) (js 0);
                   Props.screen_position := new_vec2 (js 0) (js 0);
                   Props.scale := js 1;
                   Props.position := new_vec2 (js 0) (js 0) |};
     point := new_vec2 (js 0) (js 0);
     cursor := new_vec2 (js 0) (js 0);
     zoomFactor := js 1.1;
     size := None;
     canvas_style_cssText := [] |}.

(** Field updates. *)
Definition with_props (this : InfiniteCanvas) (p : Props.t) : InfiniteCanvas :=
  {| __props := p; point := point this; cursor := cursor this;
     zoomFactor := zoomFactor this; size := size this;
     canvas_style_cssText := canvas_style_cssText this |}.

Definition with_cursor (this : InfiniteCanvas) (c : vec2) : InfiniteCanvas :=
  {| __props := __props this; point := point this; cursor := c;
     zoomFactor := zoomFactor this; size := size this;
     canvas_style_cssText := canvas_style_cssText this |}.

Definition with_size (this : InfiniteCanvas) (s : option (number * number))
  : InfiniteCanvas :=
  {| __props := __props this; point := point this; cursor := cursor this;
     zoomFactor := zoomFactor this; size := s;
     canvas_style_cssText := canvas_style_cssText this |}.

Definition with_cssText (this : InfiniteCanvas) (l : list transform)
  : InfiniteCanvas :=
  {| __props := __props this; point := point this; cursor := cursor this;
     zoomFactor := zoomFactor this; size := size this;
     canvas_style_cssText := l |}.

Definition with_screen_position (p : Props.t) (v : vec2) : Props.t :=
  {| Props.size := Props.size p; Props.screen_position := v;
     Props.scale := Props.scale p; Props.position := Props.position p |}.

Definition with_scale (p : Props.t) (s : number) : Props.t :=
  {| Props.size := Props.size p;
     Props.screen_position := Props.screen_position p;
     Props.scale := s; Props.position := Props.position p |}.

Definition with_position (p : Props.t) (v : vec2) : Props.t :=
  {| Props.size := Props.size p;
     Props.screen_position := Props.screen_position p;
     Props.scale := Props.scale p; Props.position := v |}.

(** [get position()] *)
Definition get_position (this : InfiniteCanvas) : vec2 :=
  Props.position (__props this).

(** [get scale()] *)
Definition get_scale (this : InfiniteCanvas) : number :=
  Props.scale (__props this).

(** [this.screen_position]: a property of the element itself, not of
    [this.__props].  No statement of the class assigns it, so the lookup
    yields [undefined] ([None]). *)
Definition this_screen_position (_ : InfiniteCanvas) : option vec2 := None.

(** The declaration [update] writes: [translate(${this.position.x}px,
    ${this.position.y}px) scale(${this.scale})]. *)
Definition current_transform (t : InfiniteCanvas) : transform :=
  {| translate_x := Vec2.x (get_position t);
     translate_y := Vec2.y (get_position t);
     scale_by := get_scale t |}.

(** [update()] *)
Definition update (this : InfiniteCanvas) : InfiniteCanvas :=
  with_cssText this (canvas_style_cssText this ++ [current_transform this]).

(** [screenToCanvas(point)]: the new value of [point]. *)
Definition screenToCanvas (this : InfiniteCanvas) (point : vec2) : vec2 :=
  Vec2.scale
    (Vec2.sub
       (Vec2.sub point (Props.screen_position (__props this)))
       (Props.position (__props this)))
    (js 1 / get_scale this).

(** [canvasToScreen(point)]: the new value of [point], or the exception
    raised. *)
Definition canvasToScreen (this : InfiniteCanvas) (point : vec2)
  : completion vec2 :=
  p <- Vec2.add_arg (Vec2.scale point (get_scale this))
         (this_screen_position this) ;;
  normal (Vec2.add p (Props.position (__props this))).

(** [set position({x, y})] *)
Definition set_position (this : InfiniteCanvas) (x y : number)
  : InfiniteCanvas :=
  update
    (with_props this
       (with_position (__props this)
          (Vec2.set (Props.position (__props this)) x y))).

(** [set scale(value)] *)
Definition set_scale (this : InfiniteCanvas) (value : number)
  : InfiniteCanvas :=
  update (with_props this (with_scale (__props this) value)).

(** [connectedCallback()], [bounds] being what [getBoundingClientRect()]
    returns. *)
Definition connectedCallback (this : InfiniteCanvas) (bounds : DOMRect)
  : InfiniteCanvas :=
  let this := with_size this (Some (width bounds, height bounds)) in
  with_props this
    (with_screen_position (__props this)
       (Vec2.set (Props.screen_position (__props this))
          (left bounds) (top bounds))).

(** The [onstart] callback handed to [customDrag]: its return value and the
    element afterwards.  [target_is_this] is [ev.target == this]. *)
Definition onstart (this : InfiniteCanvas) (target_is_this : bool)
  (bounds : DOMRect) : bool * InfiniteCanvas :=
  if negb target_is_this then (false, this)
  else
    (true,
     with_props this
       (with_screen_position (__props this)
          (Vec2.set (Props.screen_position (__props this))
             (left bounds) (top bounds)))).

(** The ["pointermove"] listener. *)
Definition pointermove (this : InfiniteCanvas) (clientX clientY : number)
  : InfiniteCanvas :=
  let this := with_cursor this (Vec2.set (cursor this) clientX clientY) in
  with_cursor this (screenToCanvas this (cursor this)).

(** The factor the ["wheel"] listener multiplies the scale by. *)
Definition direction (this : InfiniteCanvas) (deltaY : number) : number :=
  if deltaY >? js 0 then js 1 / zoomFactor this else zoomFactor this.

(** The ["wheel"] listener. *)
Definition wheel (this : InfiniteCanvas) (clientX clientY deltaY : number)
  : InfiniteCanvas :=
  let newScale := Math_max (js 0.1) (get_scale this * direction this deltaY) in
  let this := with_cursor this (Vec2.set (cursor this) clientX clientY) in
  let this := with_cursor this (screenToCanvas this (cursor this)) in
  let this := with_cursor this
                (Vec2.scale (cursor this) (get_scale this - newScale)) in
  let this := with_props this
                (with_position (__props this)
                   (Vec2.add (Props.position (__props this)) (cursor this))) in
  set_scale this newScale.

End Methods.

(* ================================================================== *)
(** ** The host: drag recogniser, animation frames, events *)

(** The element together with the two pieces of host state its handlers
    depend on: the callbacks queued by [requestAnimationFrame] (each one is
    [() => this.update()], so their number is all there is to record) and
    whether the drag recogniser has a gesture in progress. *)
Record Host : Type :=
  { element : InfiniteCanvas;
    animation_frame_requests : nat;
    dragging : bool }.

Inductive Event : Type :=
| Connected (bounds : DOMRect)
| DragStart (target_is_this : bool) (bounds : DOMRect)
| DragMove (deltaX deltaY : number)
| DragEnd
| PointerMove (clientX clientY : number)
| Wheel (clientX clientY deltaY : number)
| SetScale (value : number)
| SetPosition (x y : number)
| AnimationFrame.

Section Handlers.

Local Open Scope number_scope.

Definition with_element (h : Host) (t : InfiniteCanvas) : Host :=
  {| element := t;
     animation_frame_requests := animation_frame_requests h;
     dragging := dragging h |}.

(** The [onmove] callback handed to [customDrag]. *)
Definition onmove (h : Host) (deltaX deltaY : number) : Host :=
  let t := element h in
  {| element := with_props t
               (with_position (__props t)
                  (Vec2.translate (Props.position (__props t)) deltaX deltaY));
     animation_frame_requests := S (animation_frame_requests h);
     dragging := dragging h |}.

(** Modelled from the spec: [customDrag] is imported from the package
    [customdrag] and is not part of the source tree.  Spec sections 1 and
    4.3: the recogniser delivers a start/move/end stream with per-move
    deltas and a start-veto hook; "if vetoed, no state mutation occurs and
    the gesture is not considered active".  So: a start calls [onstart] and
    the gesture is active exactly when it returned true; a move calls
    [onmove] only while a gesture is active; an end closes the gesture. *)
Definition customDrag_start (h : Host) (target_is_this : bool)
  (bounds : DOMRect) : Host :=
  let (allowed, t) := onstart (element h) target_is_this bounds in
  {| element := t;
     animation_frame_requests := animation_frame_requests h;
     dragging := allowed |}.

Definition customDrag_move (h : Host) (deltaX deltaY : number) : Host :=
  if dragging h then onmove h deltaX deltaY else h.

Definition customDrag_end (h : Host) : Host :=
  {| element := element h;
     animation_frame_requests := animation_frame_requests h;
     dragging := false |}.

(** An animation frame runs every queued callback. *)
Definition animation_frame (h : Host) : Host :=
  {| element := Nat.iter (animation_frame_requests h) update (element h);
     animation_frame_requests := 0;
     dragging := dragging h |}.

Definition step (h : Host) (ev : Event) : Host :=
  match ev with
  | Connected bounds => with_element h (connectedCallback (element h) bounds)
  | DragStart target_is_this bounds => customDrag_start h target_is_this bounds
  | DragMove dx dy => customDrag_move h dx dy
  | DragEnd => customDrag_end h
  | PointerMove cx cy => with_element h (pointermove (element h) cx cy)
  | Wheel cx cy dy => with_element h (wheel (element h) cx cy dy)
  | SetScale v => with_element h (set_scale (element h) v)
  | SetPosition x y => with_element h (set_position (element h) x y)
  | AnimationFrame => animation_frame h
  end.

Definition run (h : Host) (evs : list Event) : Host := fold_left step evs h.

(** The host right after [new InfiniteCanvas()]. *)
Definition created : Host :=
  {| element := constructor; animation_frame_requests := 0; dragging := false |}.

End Handlers.

(* ================================================================== *)
(** ** Notions the statements use *)

Section Notions.

Local Open Scope number_scope.

(** The scale the wheel listener computes. *)
Definition newScale (t : InfiniteCanvas) (deltaY : number) : number :=
  Math_max (js 0.1) (get_scale t * direction t deltaY).

(** A bounding box with the given left, top, width and height. *)
Definition bounding_box (l t w h : Q) : DOMRect :=
  {| left := js l; top := js t; width := js w; height := js h |}.

(** The numbers of the transform state are finite. *)
Definition finite_transform (t : InfiniteCanvas) : Prop :=
  Vec2.finite (Props.screen_position (__props t)) /\
  Vec2.finite (Props.position (__props t)) /\
  finite (get_scale t).

(** A wheel event that zooms out. *)
Definition zoom_out (ev : Event) : Prop :=
  match ev with
  | Wheel _ _ deltaY => (deltaY >? js 0) = true
  | _ => False
  end.

(** The scale after one zoom-out step at zoom factor [zf]. *)
Definition zoom_out_scale (zf s : number) : number :=
  Math_max (js 0.1) (s * (js 1 / zf)).

(** The quotient [1 / this.scale] that [screenToCanvas] computes is a
    finite number. *)
Definition division_defined (t : InfiniteCanvas) : Prop :=
  finite (js 1 / get_scale t).

(** The inverse conversion as the spec words it (section 4.1:
    "result = p * scale + screenOrigin + panOffset"), reading the screen
    origin where [screenToCanvas] reads it, in [this.__props]. *)
Definition canvasToScreen_spec (t : InfiniteCanvas) (p : vec2) : vec2 :=
  Vec2.add
    (Vec2.add (Vec2.scale p (get_scale t))
       (Props.screen_position (__props t)))
    (Props.position (__props t)).

End Notions.

(** The defect does not hinge on how [vec2.add] treats an undefined
    argument.  Let [add_undefined v] be whatever [v.add(undefined)] does. *)
Section AnyAdd.

Variable add_undefined : vec2 -> completion vec2.

Definition canvasToScreen_any (t : InfiniteCanvas) (point : vec2)
  : completion vec2 :=
  p <- match this_screen_position t with
       | Some w => normal (Vec2.add (Vec2.scale point (get_scale t)) w)
       | None => add_undefined (Vec2.scale point (get_scale t))
       end ;;
  normal (Vec2.add p (Props.position (__props t))).

End AnyAdd.

(* ================================================================== *)
(** ** Notions for the properties of whole event sequences *)

Section SequenceNotions.

Local Open Scope number_scope.


(** The transform in effect on the canvas layer: the last declaration
    written to [cssText] (a later [transform] declaration overrides the
    earlier ones), and before any is written the initial
    translate(0px, 0px) scale(1), which is no transform at all. *)
Definition displayed (t : InfiniteCanvas) : transform :=
  last (canvas_style_cssText t) (current_transform constructor).

(** The host with the content of the [cursor] field blanked. *)
Definition erase_cursor (h : Host) : Host :=
  with_element h (with_cursor (element h) (new_vec2 (js 0) (js 0))).

Definition is_PointerMove (ev : Event) : bool :=
  match ev with PointerMove _ _ => true | _ => false end.

(** The event re-reads the bounding box: a connection, or a drag start on
    the viewport itself. *)
Definition refreshes_origin (ev : Event) : bool :=
  match ev with
  | Connected _ => true
  | DragStart target_is_this _ => target_is_this
  | _ => false
  end.

End SequenceNotions.

(* ================================================================== *)
(** ** The same handlers over binary64 *)

Module Binary64.

Import Floats.
Local Open Scope float_scope.
#[local] Set Warnings "-inexact-float".

(** A JavaScript number: an IEEE 754 binary64 value.  [+], [-], [*], [/]
    and [<?] are the kernel's primitive operations. *)
Definition number : Type := float.

(** [a > b] *)
Definition gtb (a b : number) : bool := b <? a.

(** [Math.max(a, b)]: NaN when an argument is NaN, else the larger one,
    +0 counting as larger than -0. *)
Definition Math_max (a b : number) : number :=
  if is_nan a || is_nan b then nan
  else if a <? b then b
  else if b <? a then a
  else match Prim2SF a with S754_zero true => b | _ => a end.

(** [Number.isFinite(a)] *)
Definition isFinite (a : number) : bool :=
  match Prim2SF a with
  | S754_zero _ | S754_finite _ _ _ => true
  | S754_infinity _ | S754_nan => false
  end.

(** The [vec2] package, as in [Vec2] above (modelled from the spec,
    section 3), over binary64. *)
Module Vec2.

Record vec2 : Type := new_vec2 { x : number; y : number }.

Definition set (_ : vec2) (a b : number) : vec2 := new_vec2 a b.

Definition translate (v : vec2) (dx dy : number) : vec2 :=
  new_vec2 (x v + dx) (y v + dy).

Definition add (v w : vec2) : vec2 := new_vec2 (x v + x w) (y v + y w).

Definition sub (v w : vec2) : vec2 := new_vec2 (x v - x w) (y v - y w).

Definition scale (v : vec2) (k : number) : vec2 :=
  new_vec2 (x v * k) (y v * k).

End Vec2.

Import Vec2(vec2, new_vec2).

(** [this.__props] *)
Module Props.
Record t : Type := make
  { size : vec2;
    screen_position : vec2;
    scale : number;
    position : vec2 }.
End Props.

Record DOMRect : Type :=
  { left : number; top : number; width : number; height : number }.

Record transform : Type :=
  { translate_x : number; translate_y : number; scale_by : number }.

Record InfiniteCanvas : Type :=
  { __props : Props.t;
    point : vec2;
    cursor : vec2;
    zoomFactor : number;
    size : option (number * number);
    canvas_style_cssText : list transform }.

(** The value of the element right after [constructor()]. *)
Definition constructor : InfiniteCanvas :=
  {| __props := {| Props.size := new_vec2 0 0;
                   Props.screen_position := new_vec2 0 0;
                   Props.scale := 1;
                   Props.position := new_vec2 0 0 |};
     point := new_vec2 0 0;
     cursor := new_vec2 0 0;
     zoomFactor := 1.1;
     size := None;
     canvas_style_cssText := [] |}.

Definition with_props (this : InfiniteCanvas) (p : Props.t) : InfiniteCanvas :=
  {| __props := p; point := point this; cursor := cursor this;
     zoomFactor := zoomFactor this; size := size this;
     canvas_style_cssText := canvas_style_cssText this |}.

Definition with_cursor (this : InfiniteCanvas) (c : vec2) : InfiniteCanvas :=
  {| __props := __props this; point := point this; cursor := c;
     zoomFactor := zoomFactor this; size := size this;
     canvas_style_cssText := canvas_style_cssText this |}.

Definition with_size (this : InfiniteCanvas) (s : option (number * number))
  : InfiniteCanvas :=
  {| __props := __props this; point := point this; cursor := cursor this;
     zoomFactor := zoomFactor this; size := s;
     canvas_style_cssText := canvas_style_cssText this |}.

Definition with_cssText (this : InfiniteCanvas) (l : list transform)
  : InfiniteCanvas :=
  {| __props := __props this; point := point this; cursor := cursor this;
     zoomFactor := zoomFactor this; size := size this;
     canvas_style_cssText := l |}.

(** The public field [zoomFactor] assigned by the page. *)
Definition with_zoomFactor (this : InfiniteCanvas) (z : number)
  : InfiniteCanvas :=
  {| __props := __props this; point := point this; cursor := cursor this;
     zoomFactor := z; size := size this;
     canvas_style_cssText := canvas_style_cssText this |}.

Definition with_screen_position (p : Props.t) (v : vec2) : Props.t :=
  {| Props.size := Props.size p; Props.screen_position := v;
     Props.scale := Props.scale p; Props.position := Props.position p |}.

Definition with_scale (p : Props.t) (s : number) : Props.t :=
  {| Props.size := Props.size p;
     Props.screen_position := Props.screen_position p;
     Props.scale := s; Props.position := Props.position p |}.

Definition with_position (p : Props.t) (v : vec2) : Props.t :=
  {| Props.size := Props.size p;
     Props.screen_position := Props.screen_position p;
     Props.scale := Props.scale p; Props.position := v |}.

(** [get position()] *)
Definition get_position (this : InfiniteCanvas) : vec2 :=
  Props.position (__props this).

(** [get scale()] *)
Definition get_scale (this : InfiniteCanvas) : number :=
  Props.scale (__props this).

Definition current_transform (t : InfiniteCanvas) : transform :=
  {| translate_x := Vec2.x (get_position t);
     translate_y := Vec2.y (get_position t);
     scale_by := get_scale t |}.

(** [update()] *)
Definition update (this : InfiniteCanvas) : InfiniteCanvas :=
  with_cssText this (canvas_style_cssText this ++ [current_transform this]).

(** [screenToCanvas(point)]: the new value of [point]. *)
Definition screenToCanvas (this : InfiniteCanvas) (point : vec2) : vec2 :=
  Vec2.scale
    (Vec2.sub
       (Vec2.sub point (Props.screen_position (__props this)))
       (Props.position (__props this)))
    (1 / get_scale this).

(** [set position({x, y})] *)
Definition set_position (this : InfiniteCanvas) (x y : number)
  : InfiniteCanvas :=
  update
    (with_props this
       (with_position (__props this)
          (Vec2.set (Props.position (__props this)) x y))).

(** [set scale(value)] *)
Definition set_scale (this : InfiniteCanvas) (value : number)
  : InfiniteCanvas :=
  update (with_props this (with_scale (__props this) value)).

(** [connectedCallback()] *)
Definition connectedCallback (this : InfiniteCanvas) (bounds : DOMRect)
  : InfiniteCanvas :=
  let this := with_size this (Some (width bounds, height bounds)) in
  with_props this
    (with_screen_position (__props this)
       (Vec2.set (Props.screen_position (__props this))
          (left bounds) (top bounds))).

(** The factor the ["wheel"] listener multiplies the scale by. *)
Definition direction (this : InfiniteCanvas) (deltaY : number) : number :=
  if gtb deltaY 0 then 1 / zoomFactor this else zoomFactor this.

(** The ["wheel"] listener. *)
Definition wheel (this : InfiniteCanvas) (clientX clientY deltaY : number)
  : InfiniteCanvas :=
  let newScale := Math_max 0.1 (get_scale this * direction this deltaY) in
  let this := with_cursor this (Vec2.set (cursor this) clientX clientY) in
  let this := with_cursor this (screenToCanvas this (cursor this)) in
  let this := with_cursor this
                (Vec2.scale (cursor this) (get_scale this - newScale)) in
  let this := with_props this
                (with_position (__props this)
                   (Vec2.add (Props.position (__props this)) (cursor this))) in
  set_scale this newScale.

(** The element and the host state, as in [Host] above. *)
Record Host : Type :=
  { element : InfiniteCanvas;
    animation_frame_requests : nat;
    dragging : bool }.

(** The [onmove] callback handed to [customDrag]. *)
Definition onmove (h : Host) (deltaX deltaY : number) : Host :=
  let t := element h in
  {| element := with_props t
               (with_position (__props t)
                  (Vec2.translate (Props.position (__props t)) deltaX deltaY));
     animation_frame_requests := S (animation_frame_requests h);
     dragging := dragging h |}.

(** The [onstart] callback handed to [customDrag]: its return value and the
    element afterwards.  [target_is_this] is [ev.target == this]. *)
Definition onstart (this : InfiniteCanvas) (target_is_this : bool)
  (bounds : DOMRect) : bool * InfiniteCanvas :=
  if negb target_is_this then (false, this)
  else
    (true,
     with_props this
       (with_screen_position (__props this)
          (Vec2.set (Props.screen_position (__props this))
             (left bounds) (top bounds)))).

(** The ["pointermove"] listener. *)
Definition pointermove (this : InfiniteCanvas) (clientX clientY : number)
  : InfiniteCanvas :=
  let this := with_cursor this (Vec2.set (cursor this) clientX clientY) in
  with_cursor this (screenToCanvas this (cursor this)).

Inductive Event : Type :=
| Connected (bounds : DOMRect)
| DragStart (target_is_this : bool) (bounds : DOMRect)
| DragMove (deltaX deltaY : number)
| DragEnd
| PointerMove (clientX clientY : number)
| Wheel (clientX clientY deltaY : number)
| SetScale (value : number)
| SetPosition (x y : number)
| AnimationFrame.

Definition with_element (h : Host) (t : InfiniteCanvas) : Host :=
  {| element := t;
     animation_frame_requests := animation_frame_requests h;
     dragging := dragging h |}.

(** Modelled from the spec: [customDrag] is imported from the package
    [customdrag] and is not part of the source tree.  Spec sections 1 and
    4.3: the recogniser delivers a start/move/end stream with per-move
    deltas and a start-veto hook; "if vetoed, no state mutation occurs and
    the gesture is not considered active".  So: a start calls [onstart] and
    the gesture is active exactly when it returned true; a move calls
    [onmove] only while a gesture is active; an end closes the gesture. *)
Definition customDrag_start (h : Host) (target_is_this : bool)
  (bounds : DOMRect) : Host :=
  let (allowed, t) := onstart (element h) target_is_this bounds in
  {| element := t;
     animation_frame_requests := animation_frame_requests h;
     dragging := allowed |}.

Definition customDrag_move (h : Host) (deltaX deltaY : number) : Host :=
  if dragging h then onmove h deltaX deltaY else h.

Definition customDrag_end (h : Host) : Host :=
  {| element := element h;
     animation_frame_requests := animation_frame_requests h;
     dragging := false |}.

(** An animation frame runs every queued callback. *)
Definition animation_frame (h : Host) : Host :=
  {| element := Nat.iter (animation_frame_requests h) update (element h);
     animation_frame_requests := 0;
     dragging := dragging h |}.

Definition step (h : Host) (ev : Event) : Host :=
  match ev with
  | Connected bounds => with_element h (connectedCallback (element h) bounds)
  | DragStart target_is_this bounds => customDrag_start h target_is_this bounds
  | DragMove dx dy => customDrag_move h dx dy
  | DragEnd => customDrag_end h
  | PointerMove cx cy => with_element h (pointermove (element h) cx cy)
  | Wheel cx cy dy => with_element h (wheel (element h) cx cy dy)
  | SetScale v => with_element h (set_scale (element h) v)
  | SetPosition x y => with_element h (set_position (element h) x y)
  | AnimationFrame => animation_frame h
  end.

Definition run (h : Host) (evs : list Event) : Host := fold_left step evs h.

(** The host right after [new InfiniteCanvas()]. *)
Definition created : Host :=
  {| element := constructor; animation_frame_requests := 0; dragging := false |}.

(** *** Notions the statements use *)

(** The events of a gesture's moves, one per pair of deltas. *)
Definition drag_moves (ds : list (number * number)) : list Event :=
  map (fun d => DragMove (fst d) (snd d)) ds.

(** The pan offset after the moves: the deltas added one move at a time,
    each addition rounded. *)
Definition translated (v : vec2) (ds : list (number * number)) : vec2 :=
  fold_left (fun v d => Vec2.translate v (fst d) (snd d)) ds v.

(** The event is an assignment to [scale]. *)
Definition is_SetScale (ev : Event) : bool :=
  match ev with SetScale _ => true | _ => false end.

(** The pixel coordinate [n], as pointer events report it. *)
Fixpoint pixel (n : nat) : number :=
  match n with O => 0 | S k => pixel k + 1 end.



(** A viewport mounted with bounding box left = 50, top = 20 and the given
    width and height. *)
Definition mounted (w h : number) : InfiniteCanvas :=
  connectedCallback constructor
    {| left := 50; top := 20; width := w; height := h |}.

(** A host in a gesture, its pan offset assigned through the position
    setter. *)
Definition panned_to (x y : number) : Host :=
  {| element := set_position constructor x y;
     animation_frame_requests := 0;
     dragging := true |}.

(** [v.x == w.x && v.y == w.y] *)
Definition same_point (v w : vec2) : bool :=
  (Vec2.x v =? Vec2.x w) && (Vec2.y v =? Vec2.y w).

(** From the pan offset [(i, j)], the moves (3,4) and then (-1,2) leave the
    offset at the start plus (2,6). *)
Definition moves_add_up (i j : nat) : bool :=
  let h := panned_to (pixel i) (pixel j) in
  same_point
    (get_position (element (onmove (onmove h 3 4) (-1) 2)))
    (Vec2.add (get_position (element h)) (new_vec2 2 6)).

End Binary64.

(* ================================================================== *)
(** ** Facts about numbers *)

Module NumberFacts.

Local Open Scope Qc_scope.

Lemma Qceqb_eq (p q : Qc) : Qceqb p q = true <-> p = q.
Proof.
  unfold Qceqb. rewrite Qceq_alt.
  destruct (p ?= q); split; congruence.
Qed.

Lemma Qceqb_neq (p q : Qc) : Qceqb p q = false <-> p <> q.
Proof.
  rewrite <- Qceqb_eq. destruct (Qceqb p q); split; congruence.
Qed.

Lemma Qcltb_lt (p q : Qc) : Qcltb p q = true <-> p < q.
Proof.
  unfold Qcltb. rewrite Qclt_alt.
  destruct (p ?= q); split; congruence.
Qed.

Lemma Qcltb_ge (p q : Qc) : Qcltb p q = false <-> q <= p.
Proof.
  split; intro H.
  - apply Qcnot_lt_le. rewrite <- Qcltb_lt. congruence.
  - destruct (Qcltb p q) eqn:E; [|reflexivity].
    apply Qcltb_lt in E. exfalso. exact (Qcle_not_lt _ _ H E).
Qed.

Lemma Qcltb_irrefl (p : Qc) : Qcltb p p = false.
Proof. apply Qcltb_ge, Qcle_refl. Qed.

Lemma Qcltb_asym (p q : Qc) : Qcltb p q = true -> Qcltb q p = false.
Proof.
  rewrite Qcltb_lt, Qcltb_ge. apply Qclt_le_weak.
Qed.

Lemma same_value_eq (a b : number) : same_value a b = true <-> a = b.
Proof.
  destruct a as [p|s|], b as [q|t|]; simpl;
    try (split; [discriminate | intros [=]]); try (split; reflexivity).
  - rewrite Qceqb_eq. split; [congruence | intros [=]; assumption].
  - rewrite Bool.eqb_true_iff. split; [congruence | intros [=]; assumption].
Qed.

Lemma same_vec2_eq (v w : vec2) : same_vec2 v w = true <-> v = w.
Proof.
  destruct v as [a b], w as [c d]. unfold same_vec2; simpl.
  rewrite Bool.andb_true_iff, !same_value_eq.
  split; [intros [-> ->]; reflexivity | intros [=]; auto].
Qed.

Lemma finite_Fin (q : Qc) : finite (Fin q).
Proof. exists q; reflexivity. Qed.

(** Division of finite numbers is finite exactly when the divisor is not
    zero. *)
Lemma div_Fin (p q : Qc) : q <> 0 -> (Fin p / Fin q)%num = Fin (p / q).
Proof.
  intro H. simpl. apply Qceqb_neq in H. rewrite H. reflexivity.
Qed.

Lemma div_by_zero (p : Qc) : ~ finite (Fin p / Fin 0)%num.
Proof.
  simpl. replace (Qceqb 0 0) with true by (symmetry; apply Qceqb_eq; reflexivity).
  destruct (Qceqb p 0); intros [q [=]].
Qed.


Lemma gtb_zero_pos (q : Qc) : (Fin q >? js 0)%num = true <-> 0 < q.
Proof. simpl. apply Qcltb_lt. Qed.

(** IEEE: [x - 0 = x] and [x * 1 = x] for every number, special values
    included. *)
Lemma sub_zero (a : number) : (a - js 0)%num = a.
Proof.
  destruct a as [q| |]; simpl; try reflexivity.
  f_equal. change (Q2Qc 0) with 0. ring.
Qed.

Lemma mul_one (a : number) : (a * js 1)%num = a.
Proof.
  destruct a as [q|s|]; simpl; try reflexivity.
  - f_equal. change (Q2Qc 1) with 1. ring.
  - destruct s; reflexivity.
Qed.

Lemma one_div_one : (js 1 / js 1)%num = js 1.
Proof. apply same_value_eq. reflexivity. Qed.

(** [Math.max(a, b)] is never below [a], whatever [b] is (a NaN result
    is not below anything). *)
Lemma Math_max_not_below (a b : number) : (Math_max a b <? a)%num = false.
Proof.
  unfold ltb.
  destruct a as [p|s|], b as [q|t|]; simpl; try reflexivity.
  - destruct (Qcltb p q) eqn:E; simpl.
    + apply Qcltb_asym; assumption.
    + apply Qcltb_irrefl.
  - destruct t; simpl; [apply Qcltb_irrefl | reflexivity].
  - destruct s; simpl; reflexivity.
  - destruct s, t; reflexivity.
Qed.

Lemma Math_max_Fin (p q : Qc) :
  Math_max (Fin p) (Fin q) = Fin (if Qcltb p q then q else p).
Proof. simpl. destruct (Qcltb p q); reflexivity. Qed.

End NumberFacts.

(** Checking a decidable property on a square of pixel coordinates. *)
Section Grids.

Lemma forallb_seq (f : nat -> bool) (n : nat) :
  forallb f (seq 0 n) = true -> forall i : nat, (i < n)%nat -> f i = true.
Proof.
  intros H i Hi. rewrite forallb_forall in H. apply H, in_seq. lia.
Qed.

Lemma forallb_grid (f : nat -> nat -> bool) (n : nat) :
  forallb (fun i => forallb (f i) (seq 0 n)) (seq 0 n) = true ->
  forall i j : nat, (i < n)%nat -> (j < n)%nat -> f i j = true.
Proof.
  intros H i j Hi Hj.
  apply (@forallb_seq (f i) n); [|exact Hj].
  exact (@forallb_seq (fun i => forallb (f i) (seq 0 n)) n H i Hi).
Qed.

End Grids.

Import NumberFacts.

(* ================================================================== *)
(** ** What each handler reads and writes *)

Section Frames.

Local Open Scope number_scope.

Lemma update_props (t : InfiniteCanvas) : __props (update t) = __props t.
Proof. reflexivity. Qed.

Lemma get_scale_set_scale (t : InfiniteCanvas) (v : number) :
  get_scale (set_scale t v) = v.
Proof. reflexivity. Qed.

Lemma get_position_set_scale (t : InfiniteCanvas) (v : number) :
  get_position (set_scale t v) = get_position t.
Proof. reflexivity. Qed.

Lemma get_position_set_position (t : InfiniteCanvas) (a b : number) :
  get_position (set_position t a b) = new_vec2 a b.
Proof. reflexivity. Qed.

Lemma wheel_scale (t : InfiniteCanvas) (cx cy dy : number) :
  get_scale (wheel t cx cy dy) = newScale t dy.
Proof. reflexivity. Qed.

Lemma wheel_cursor (t : InfiniteCanvas) (cx cy dy : number) :
  cursor (wheel t cx cy dy) =
  Vec2.scale (screenToCanvas t (new_vec2 cx cy)) (get_scale t - newScale t dy).
Proof. reflexivity. Qed.

Lemma wheel_position (t : InfiniteCanvas) (cx cy dy : number) :
  get_position (wheel t cx cy dy) =
  Vec2.add (get_position t)
    (Vec2.scale (screenToCanvas t (new_vec2 cx cy))
       (get_scale t - newScale t dy)).
Proof. reflexivity. Qed.

Lemma wheel_screen_position (t : InfiniteCanvas) (cx cy dy : number) :
  Props.screen_position (__props (wheel t cx cy dy)) =
  Props.screen_position (__props t).
Proof. reflexivity. Qed.

Lemma wheel_zoomFactor (t : InfiniteCanvas) (cx cy dy : number) :
  zoomFactor (wheel t cx cy dy) = zoomFactor t.
Proof. reflexivity. Qed.

Lemma step_DragMove_active (h : Host) (dx dy : number) :
  dragging h = true -> step h (DragMove dx dy) = onmove h dx dy.
Proof. intro H. simpl. unfold customDrag_move. rewrite H. reflexivity. Qed.

Lemma step_DragMove_idle (h : Host) (dx dy : number) :
  dragging h = false -> step h (DragMove dx dy) = h.
Proof. intro H. simpl. unfold customDrag_move. rewrite H. reflexivity. Qed.

Lemma run_moves_idle (h : Host) (moves : list (number * number)) :
  dragging h = false ->
  run h (map (fun d => DragMove (fst d) (snd d)) moves) = h.
Proof.
  intro H. induction moves as [|[dx dy] moves IH]; simpl.
  - reflexivity.
  - unfold customDrag_move. rewrite H. exact IH.
Qed.

End Frames.

(* ================================================================== *)
(** ** Construction (C9) *)

Section Construction.

Local Open Scope number_scope.

Lemma screenToCanvas_identity (t : InfiniteCanvas) (p : vec2) :
  get_scale t = js 1 ->
  get_position t = new_vec2 (js 0) (js 0) ->
  screenToCanvas t p = Vec2.sub p (Props.screen_position (__props t)).
Proof.
  unfold screenToCanvas, get_position. intros -> ->.
  unfold Vec2.scale, Vec2.sub; simpl Vec2.x; simpl Vec2.y.
  rewrite one_div_one, !mul_one, !sub_zero. reflexivity.
Qed.

(** C9. A freshly constructed viewport that has received no event has
    scale 1, position (0,0) and screen origin (0,0), and there
    [screenToCanvas(p)] is [p - screenOrigin], which is [p] itself, for
    every point [p] (the special values included). *)
Theorem identity_at_construction :
  let t := element (run created []) in
  get_scale t = js 1 /\
  get_position t = new_vec2 (js 0) (js 0) /\
  Props.screen_position (__props t) = new_vec2 (js 0) (js 0) /\
  forall p : vec2,
    screenToCanvas t p = Vec2.sub p (Props.screen_position (__props t)) /\
    screenToCanvas t p = p.
Proof.
  cbv zeta. change (element (run created [])) with constructor.
  repeat split; try reflexivity.
  - apply screenToCanvas_identity; reflexivity.
  - rewrite screenToCanvas_identity by reflexivity.
    destruct p as [a b]. unfold Vec2.sub; simpl.
    change (Fin (Q2Qc 0)) with (js 0). rewrite !sub_zero. reflexivity.
Qed.

End Construction.

(* ================================================================== *)
(** ** Panning: the veto (C7), and the sum of two moves over exact numbers *)

Section Panning.

Local Open Scope number_scope.

Lemma add_add_literals (a : number) :
  a + js 3 + js (-1) = a + js 2 /\ a + js 4 + js 2 = a + js 6.
Proof.
  assert (E1 : (Q2Qc 3 + Q2Qc (-1) = Q2Qc 2)%Qc)
    by (apply Qc_is_canon; reflexivity).
  assert (E2 : (Q2Qc 4 + Q2Qc 2 = Q2Qc 6)%Qc)
    by (apply Qc_is_canon; reflexivity).
  destruct a as [q|s|]; simpl; split; try reflexivity; f_equal.
  - rewrite <- E1. ring.
  - rewrite <- E2. ring.
Qed.

Lemma onmove_translates (h : Host) (dx dy : number) :
  get_position (element (onmove h dx dy)) =
    Vec2.translate (get_position (element h)) dx dy.
Proof. reflexivity. Qed.

Lemma onmove_requests_frame (h : Host) (dx dy : number) :
  animation_frame_requests (onmove h dx dy) = S (animation_frame_requests h).
Proof. reflexivity. Qed.

(** Over exact numbers the two moves add up to (2,6) from every start;
    over binary64 see [PanningBinary64]. *)
Lemma onmove_twice (h : Host) :
  get_position (element (onmove (onmove h (js 3) (js 4)) (js (-1)) (js 2))) =
    Vec2.add (get_position (element h)) (new_vec2 (js 2) (js 6)).
Proof.
  rewrite !onmove_translates.
  unfold Vec2.translate, Vec2.add; simpl.
  destruct (add_add_literals (Vec2.x (get_position (element h)))) as [-> _].
  destruct (add_add_literals (Vec2.y (get_position (element h)))) as [_ ->].
  reflexivity.
Qed.

(** C7. A drag start whose target is not the viewport itself is vetoed:
    [onstart] returns false and changes nothing, so the element (scale, pan
    offset, screen origin and all the rest) is as before, no gesture is
    active, and the moves that follow are not applied. *)
Theorem drag_veto (h : Host) (bounds : DOMRect) (moves : list (number * number)) :
  let h' := step h (DragStart false bounds) in
  onstart (element h) false bounds = (false, element h) /\
  element h' = element h /\
  animation_frame_requests h' = animation_frame_requests h /\
  dragging h' = false /\
  run h' (map (fun d => DragMove (fst d) (snd d)) moves) = h'.
Proof.
  cbv zeta. repeat split.
  apply run_moves_idle. reflexivity.
Qed.

End Panning.

(* ================================================================== *)
(** ** Panning in binary64 (C4) *)

Section PanningBinary64.

Import Floats.
Local Open Scope float_scope.
#[local] Set Warnings "-inexact-float".

(** C4, as stated, fails in binary64: the two additions round.  From the
    pan offset (1.0000000000000004, 0), the moves (3,4) and then (-1,2)
    leave x at 3 (1.0000000000000004 + 3 rounds to 4), while the start
    plus 2 is 3.0000000000000004. *)
Lemma pan_sum_is_rounded :
  let h := Binary64.panned_to 1.0000000000000004 0 in
  let start := Binary64.get_position (Binary64.element h) in
  let after :=
    Binary64.get_position
      (Binary64.element (Binary64.onmove (Binary64.onmove h 3 4) (-1) 2)) in
  start = Binary64.Vec2.new_vec2 1.0000000000000004 0 /\
  after = Binary64.Vec2.new_vec2 3 6 /\
  Binary64.Vec2.add start (Binary64.Vec2.new_vec2 2 6)
    = Binary64.Vec2.new_vec2 3.0000000000000004 6 /\
  (Binary64.Vec2.x after =? 3.0000000000000004) = false.
Proof. cbv zeta. repeat split. Qed.

(** C4, amended.  The [onmove] callback adds the deltas it is given to the
    pan offset, one binary64 addition per coordinate, touches neither the
    scale nor the screen origin, and queues one animation-frame callback.
    So the moves (3,4) and then (-1,2) leave the offset at
    ((x + 3) + -1, (y + 4) + 2), each sum rounded; from the constructed
    offset (0,0) that is exactly (2,6), and from every start (i, j) with
    integers 0 <= i, j < 256 it is the start plus (2,6). *)
Theorem pan_accumulation_rounded :
  (forall (h : Binary64.Host) (dx dy : float),
      Binary64.get_position (Binary64.element (Binary64.onmove h dx dy)) =
        Binary64.Vec2.translate
          (Binary64.get_position (Binary64.element h)) dx dy /\
      Binary64.get_scale (Binary64.element (Binary64.onmove h dx dy)) =
        Binary64.get_scale (Binary64.element h) /\
      Binary64.Props.screen_position
        (Binary64.__props (Binary64.element (Binary64.onmove h dx dy))) =
        Binary64.Props.screen_position
          (Binary64.__props (Binary64.element h)) /\
      Binary64.animation_frame_requests (Binary64.onmove h dx dy) =
        S (Binary64.animation_frame_requests h)) /\
  (forall h : Binary64.Host,
      let p := Binary64.get_position (Binary64.element h) in
      Binary64.get_position
        (Binary64.element (Binary64.onmove (Binary64.onmove h 3 4) (-1) 2)) =
        Binary64.Vec2.new_vec2 (Binary64.Vec2.x p + 3 + -1)
                               (Binary64.Vec2.y p + 4 + 2)) /\
  Binary64.get_position
    (Binary64.element
       (Binary64.onmove (Binary64.onmove Binary64.created 3 4) (-1) 2)) =
    Binary64.Vec2.new_vec2 2 6 /\
  (forall i j : nat, (i < 256)%nat -> (j < 256)%nat ->
      Binary64.moves_add_up i j = true).
Proof.
  split; [|split; [|split]].
  - intros h dx dy. repeat split.
  - intro h. reflexivity.
  - reflexivity.
  - apply (@forallb_grid Binary64.moves_add_up 256). vm_compute. reflexivity.
Qed.

(** The last part at the start (10, 20). *)
Lemma pan_accumulation_rounded_witness : Binary64.moves_add_up 10 20 = true.
Proof.
  apply (proj2 (proj2 (proj2 pan_accumulation_rounded)) 10%nat 20%nat);
    apply Nat.ltb_lt; reflexivity.
Defined.

End PanningBinary64.

(* ================================================================== *)
(** ** The cursor field (C10) *)

Section Cursor.

Local Open Scope number_scope.

(** C10. After the pointermove listener has run for a pointer at screen
    position (cx, cy), [cursor] holds [screenToCanvas((cx, cy))], not the
    screen position; after the wheel listener has run at anchor (cx, cy) it
    holds the pre-zoom [screenToCanvas((cx, cy))] scaled by
    (old scale - new scale).  For a viewport mounted at (50,20) and a
    pointer at (150,120) that is (100,100), not (150,120). *)
Theorem cursor_holds_canvas_point :
  (forall (t : InfiniteCanvas) (cx cy : number),
      cursor (pointermove t cx cy) = screenToCanvas t (new_vec2 cx cy)) /\
  (forall (t : InfiniteCanvas) (cx cy dy : number),
      cursor (wheel t cx cy dy) =
        Vec2.scale (screenToCanvas t (new_vec2 cx cy))
          (get_scale t - get_scale (wheel t cx cy dy))) /\
  (let t := connectedCallback constructor (bounding_box 50 20 800 600) in
   cursor (pointermove t (js 150) (js 120)) = new_vec2 (js 100) (js 100) /\
   same_vec2 (cursor (pointermove t (js 150) (js 120)))
     (new_vec2 (js 150) (js 120)) = false).
Proof.
  split; [|split].
  - reflexivity.
  - reflexivity.
  - cbv zeta. split.
    + apply same_vec2_eq. vm_compute. reflexivity.
    + vm_compute. reflexivity.
Qed.

End Cursor.

(* ================================================================== *)
(** ** Zooming: the floor (C3), and the zoom-to-cursor algebra over exact numbers *)

Section Zooming.

Local Open Scope number_scope.

(** The algebra behind zoom-to-cursor, on one coordinate. *)
Lemma anchor_fixed_Qc (a o p s s1 : Qc) :
  s <> 0%Qc -> s1 <> 0%Qc ->
  ((a - o - (p + (a - o - p) * (1 / s) * (s - s1))) * (1 / s1)
   = (a - o - p) * (1 / s))%Qc.
Proof. intros Hs Hs1. field. split; assumption. Qed.

Lemma anchor_fixed (a o p : number) (s s1 : Qc) :
  finite a -> finite o -> finite p -> s <> 0%Qc -> s1 <> 0%Qc ->
  (a - o - (p + (a - o - p) * (js 1 / Fin s) * (Fin s - Fin s1)))
    * (js 1 / Fin s1)
  = (a - o - p) * (js 1 / Fin s).
Proof.
  intros [qa ->] [qo ->] [qp ->] Hs Hs1.
  unfold js. change (Q2Qc 1) with 1%Qc.
  rewrite !div_Fin by assumption. simpl.
  f_equal. apply anchor_fixed_Qc; assumption.
Qed.

Lemma tenth_pos : (0 < Q2Qc 0.1)%Qc.
Proof. apply Qclt_alt. reflexivity. Qed.

(** The clamp makes the new scale a positive finite number whenever the
    product it clamps is finite. *)
Lemma Math_max_tenth_Fin (q : Qc) :
  exists s1 : Qc, Math_max (js 0.1) (Fin q) = Fin s1 /\ (0 < s1)%Qc.
Proof.
  unfold js. rewrite Math_max_Fin.
  destruct (Qcltb (Q2Qc 0.1) q) eqn:E.
  - exists q. split; [reflexivity|].
    apply Qcltb_lt in E. exact (Qclt_trans _ _ _ tenth_pos E).
  - exists (Q2Qc 0.1). split; [reflexivity | exact tenth_pos].
Qed.

Lemma direction_finite (t : InfiniteCanvas) (deltaY : number) :
  finite (zoomFactor t) -> zoomFactor t <> js 0 ->
  finite (direction t deltaY).
Proof.
  intros [z Hz] Hnz. unfold direction. rewrite Hz in *.
  destruct (deltaY >? js 0); [|apply finite_Fin].
  unfold js. change (Q2Qc 1) with 1%Qc. rewrite div_Fin.
  - apply finite_Fin.
  - intro E. apply Hnz. unfold js. rewrite E. reflexivity.
Qed.

Lemma newScale_finite_pos (t : InfiniteCanvas) (deltaY : number) :
  finite (get_scale t) -> finite (zoomFactor t) -> zoomFactor t <> js 0 ->
  exists s1 : Qc, newScale t deltaY = Fin s1 /\ (0 < s1)%Qc.
Proof.
  intros [s Hs] Hz Hnz.
  destruct (direction_finite t deltaY Hz Hnz) as [d Hd].
  unfold newScale. rewrite Hs, Hd. simpl mul.
  apply Math_max_tenth_Fin.
Qed.

Lemma Qc_pos_neq (q : Qc) : (0 < q)%Qc -> q <> 0%Qc.
Proof. intros H E. rewrite E in H. exact (Qclt_not_eq _ _ H eq_refl). Qed.

(** Over exact numbers the pan correction of the wheel listener keeps the
    canvas point under the anchor where it was, clamped step or not; over
    binary64 see [ZoomBinary64]. *)
Lemma wheel_keeps_anchor (t : InfiniteCanvas) (a : vec2) (deltaY : number) :
  finite_transform t -> Vec2.finite a ->
  finite (zoomFactor t) -> zoomFactor t <> js 0 ->
  (get_scale t >? js 0) = true ->
  screenToCanvas (wheel t (Vec2.x a) (Vec2.y a) deltaY) a = screenToCanvas t a.
Proof.
  intros (Ho & Hp & Hs) Ha Hz Hnz Hpos.
  destruct (newScale_finite_pos t deltaY Hs Hz Hnz) as (s1 & Hs1 & Hs1pos).
  destruct Hs as [s Hs].
  assert (Hsnz : s <> 0%Qc).
  { apply Qc_pos_neq. apply gtb_zero_pos. rewrite <- Hs. exact Hpos. }
  apply Qc_pos_neq in Hs1pos.
  destruct Ha as [Hax Hay], Ho as [Hox Hoy], Hp as [Hpx Hpy].
  unfold screenToCanvas at 1.
  rewrite wheel_screen_position.
  fold (get_position (wheel t (Vec2.x a) (Vec2.y a) deltaY)).
  rewrite wheel_position, wheel_scale.
  destruct a as [ax ay].
  unfold screenToCanvas, get_position.
  unfold Vec2.scale, Vec2.sub, Vec2.add; cbn [Vec2.x Vec2.y] in *.
  rewrite Hs1, Hs.
  rewrite !anchor_fixed by assumption.
  reflexivity.
Qed.

End Zooming.

Section ZoomClaims.

Local Open Scope number_scope.

Lemma wheel_not_below_floor (t : InfiniteCanvas) (cx cy dy : number) :
  (get_scale (wheel t cx cy dy) <? js 0.1) = false.
Proof. rewrite wheel_scale. apply Math_max_not_below. Qed.

Lemma direction_zoom_out (t : InfiniteCanvas) (dy : number) :
  (dy >? js 0) = true -> direction t dy = js 1 / zoomFactor t.
Proof. intro H. unfold direction. rewrite H. reflexivity. Qed.


(** Along zoom-out events the scale follows [zoom_out_scale] and the zoom
    factor stays put, wherever the cursor is. *)
Lemma run_zoom_out (evs : list Event) : forall h : Host,
  Forall zoom_out evs ->
  get_scale (element (run h evs)) =
    Nat.iter (length evs) (zoom_out_scale (zoomFactor (element h)))
      (get_scale (element h)) /\
  zoomFactor (element (run h evs)) = zoomFactor (element h).
Proof.
  induction evs as [|ev evs IH]; intros h Hall.
  - split; reflexivity.
  - inversion Hall as [|? ? Hev Hevs]; subst.
    destruct ev; try contradiction. simpl in Hev.
    change (run h (Wheel clientX clientY deltaY :: evs))
      with (run (step h (Wheel clientX clientY deltaY)) evs).
    destruct (IH (step h (Wheel clientX clientY deltaY)) Hevs) as [E1 E2].
    rewrite E1, E2. cbn [step with_element element].
    rewrite wheel_zoomFactor, wheel_scale.
    split; [|reflexivity].
    cbn [length]. rewrite Nat.iter_succ_r.
    unfold newScale. rewrite (direction_zoom_out _ _ Hev). reflexivity.
Qed.

Lemma run_not_below_floor (evs : list Event) : forall (h : Host) (ev : Event),
  Forall zoom_out (ev :: evs) ->
  (get_scale (element (run h (ev :: evs))) <? js 0.1) = false.
Proof.
  induction evs as [|ev' evs IH]; intros h ev Hall.
  - inversion Hall as [|? ? Hev _]; subst.
    destruct ev; try contradiction.
    apply wheel_not_below_floor.
  - inversion Hall as [|? ? _ Hrest]; subst.
    change (run h (ev :: ev' :: evs)) with (run (step h ev) (ev' :: evs)).
    apply IH. exact Hrest.
Qed.

Lemma floor_after_200 :
  Nat.iter 200 (zoom_out_scale (js 1.1)) (js 1) = js 0.1.
Proof. apply same_value_eq. vm_compute. reflexivity. Qed.

(** C3. Scale floor.  Every wheel step sets the scale to
    max(0.1, scale * direction); so after one or more zoom-out events,
    from any state, the scale is not below 0.1; and from scale 1 with zoom
    factor 1.1, any 200 zoom-out events leave the scale at exactly 0.1. *)
Theorem scale_floor :
  (forall (t : InfiniteCanvas) (cx cy dy : number),
      get_scale (wheel t cx cy dy) =
        Math_max (js 0.1) (get_scale t * direction t dy)) /\
  (forall (h : Host) (ev : Event) (evs : list Event),
      Forall zoom_out (ev :: evs) ->
      (get_scale (element (run h (ev :: evs))) <? js 0.1) = false) /\
  (forall (h : Host) (evs : list Event),
      get_scale (element h) = js 1 -> zoomFactor (element h) = js 1.1 ->
      Forall zoom_out evs -> length evs = 200%nat ->
      get_scale (element (run h evs)) = js 0.1).
Proof.
  split; [|split].
  - intros. reflexivity.
  - intros h ev evs. apply run_not_below_floor.
  - intros h evs Hs Hz Hall Hlen.
    destruct (run_zoom_out h Hall) as [-> _].
    rewrite Hs, Hz, Hlen. exact floor_after_200.
Qed.

Lemma scale_floor_witness :
  get_scale
    (element (run created (repeat (Wheel (js 0) (js 0) (js 100)) 200)))
  = js 0.1.
Proof.
  apply (proj2 (proj2 scale_floor) created).
  - reflexivity.
  - reflexivity.
  - apply Forall_forall. intros ev Hev.
    apply repeat_spec in Hev. subst ev. reflexivity.
  - apply repeat_length.
Defined.

End ZoomClaims.

(* ================================================================== *)
(** ** Zooming in binary64 (C2, C5, C6) *)

Section ZoomBinary64.

Import Floats.
Local Open Scope float_scope.
#[local] Set Warnings "-inexact-float".






(** C5, as stated, fails: a viewport mounted at (50,20), at scale 1 and
    pan offset (0,0), receives a wheel event with deltaY = 0 at (150,120);
    afterwards the scale is 1.1 and the pan offset
    (-10.000000000000009, -10.000000000000009). *)
Lemma zero_delta_wheel_changes_state :
  let t := Binary64.mounted 800 600 in
  let t' := Binary64.wheel t 150 120 0 in
  (Binary64.get_scale t = 1 /\ Binary64.get_scale t' = 1.1) /\
  (Binary64.get_position t = Binary64.Vec2.new_vec2 0 0 /\
   Binary64.get_position t'
     = Binary64.Vec2.new_vec2 (-10.000000000000009) (-10.000000000000009)) /\
  (Binary64.get_scale t' =? Binary64.get_scale t) = false /\
  (Binary64.Vec2.x (Binary64.get_position t')
     =? Binary64.Vec2.x (Binary64.get_position t)) = false.
Proof. cbv zeta. repeat split. Qed.

(** C5, amended.  In every state a wheel event with deltaY = 0 takes the
    zoom-in branch ([deltaY > 0] is false, so the direction is
    [zoomFactor]) and is handled exactly like an event with a negative
    delta: the scale becomes max(0.1, scale * zoomFactor), the pan offset
    gains anchorCanvasPoint * (old scale - new scale), and [update] writes
    one transform.  So it is a no-op on the transform state in some states
    (zoom factor 1 at scale 1: [__props] is unchanged) and not in others
    (the default zoom factor 1.1 at scale 1: the scale becomes 1.1). *)
Theorem zero_delta_wheel_is_zoom_in :
  (forall (t : Binary64.InfiniteCanvas) (cx cy : float),
      let t' := Binary64.wheel t cx cy 0 in
      Binary64.direction t 0 = Binary64.zoomFactor t /\
      t' = Binary64.wheel t cx cy (-100) /\
      Binary64.get_scale t' =
        Binary64.Math_max 0.1 (Binary64.get_scale t * Binary64.zoomFactor t) /\
      Binary64.get_position t' =
        Binary64.Vec2.add (Binary64.get_position t)
          (Binary64.Vec2.scale
             (Binary64.screenToCanvas t (Binary64.Vec2.new_vec2 cx cy))
             (Binary64.get_scale t - Binary64.get_scale t')) /\
      Binary64.canvas_style_cssText t' =
        Binary64.canvas_style_cssText t ++ [Binary64.current_transform t']) /\
  (forall w h : float,
      let t := Binary64.with_zoomFactor (Binary64.mounted w h) 1 in
      Binary64.__props (Binary64.wheel t 150 120 0) = Binary64.__props t) /\
  (forall w h : float,
      let t := Binary64.mounted w h in
      Binary64.get_scale t = 1 /\
      Binary64.get_scale (Binary64.wheel t 150 120 0) = 1.1).
Proof.
  split; [|split].
  - intros t cx cy. cbv zeta. repeat split.
  - intros w h. reflexivity.
  - intros w h. split; reflexivity.
Qed.

(** C6, as stated, fails in binary64 in its last part: in the scenario
    [screenToCanvas((150,120))] is (100,100) before the wheel event and
    (100.00000000000001, 100.00000000000001) after it. *)
Lemma zoom_in_scenario_moves_anchor :
  let a := Binary64.Vec2.new_vec2 150 120 in
  let before := Binary64.mounted 800 600 in
  let after := Binary64.wheel before 150 120 (-100) in
  Binary64.screenToCanvas before a = Binary64.Vec2.new_vec2 100 100 /\
  Binary64.screenToCanvas after a
    = Binary64.Vec2.new_vec2 100.00000000000001 100.00000000000001 /\
  (Binary64.Vec2.x (Binary64.screenToCanvas after a)
     =? Binary64.Vec2.x (Binary64.screenToCanvas before a)) = false /\
  (Binary64.Vec2.y (Binary64.screenToCanvas after a)
     =? Binary64.Vec2.y (Binary64.screenToCanvas before a)) = false.
Proof. cbv zeta. repeat split. Qed.

(** C6, amended.  The wheel listener multiplies the scale by 1/zoomFactor
    when deltaY > 0 (zoom out) and by zoomFactor otherwise (zoom in).  A
    viewport mounted with bounding box left = 50, top = 20 (any width and
    height) is at scale 1 with zoom factor 1.1; a wheel event with
    deltaY = -100 at (150,120) makes the scale exactly 1.1 and the pan
    offset (-10.000000000000009, -10.000000000000009);
    [screenToCanvas((150,120))] is (100,100) before the event and the next
    double, (100.00000000000001, 100.00000000000001), after it: equal to
    within one unit in the last place, not equal.  With deltaY = 100 the
    scale becomes 1 * (1/1.1), which is below 1. *)
Theorem zoom_direction_scenario_rounded :
  (forall (t : Binary64.InfiniteCanvas) (deltaY : float),
      Binary64.direction t deltaY =
        if Binary64.gtb deltaY 0 then 1 / Binary64.zoomFactor t
        else Binary64.zoomFactor t) /\
  (forall w h : float,
      let a := Binary64.Vec2.new_vec2 150 120 in
      let before := Binary64.mounted w h in
      let after := Binary64.wheel before 150 120 (-100) in
      let out := Binary64.wheel before 150 120 100 in
      Binary64.get_scale before = 1 /\
      Binary64.zoomFactor before = 1.1 /\
      Binary64.get_scale after = 1.1 /\
      Binary64.get_position after
        = Binary64.Vec2.new_vec2 (-10.000000000000009) (-10.000000000000009) /\
      Binary64.screenToCanvas before a = Binary64.Vec2.new_vec2 100 100 /\
      Binary64.screenToCanvas after a
        = Binary64.Vec2.new_vec2 (next_up 100) (next_up 100) /\
      next_up 100 = 100.00000000000001 /\
      Binary64.get_scale out = 1 * (1 / 1.1) /\
      (Binary64.get_scale out <? 1) = true).
Proof.
  split.
  - reflexivity.
  - intros w h. cbv zeta. repeat split.
Qed.

End ZoomBinary64.

(* ================================================================== *)
(** ** The scale setter and the division in [screenToCanvas] (C8) *)

Section ScaleSetter.

Local Open Scope number_scope.


(** C8, as stated, fails in its "only under which": the public setter
    stores -2, which is not > 0, and the division is perfectly defined:
    1 / -2 = -0.5 and [screenToCanvas((3,4))] = (-1.5,-2). *)
Lemma negative_scale_divides :
  let t := element (run created [SetScale (js (-2))]) in
  get_scale t = js (-2) /\
  (get_scale t >? js 0) = false /\
  js 1 / get_scale t = js (-0.5) /\
  division_defined t /\
  screenToCanvas t (new_vec2 (js 3) (js 4)) = new_vec2 (js (-1.5)) (js (-2)).
Proof.
  cbv zeta. split; [|split; [|split; [|split]]].
  - reflexivity.
  - reflexivity.
  - apply same_value_eq. vm_compute. reflexivity.
  - unfold division_defined. cbn [run fold_left step with_element element].
    rewrite get_scale_set_scale. exists (Q2Qc (-0.5)).
    apply same_value_eq. vm_compute. reflexivity.
  - apply same_vec2_eq. vm_compute. reflexivity.
Qed.

End ScaleSetter.

(* ================================================================== *)
(** ** The scale setter in binary64 (C8) *)

Section ScaleSetterBinary64.

Import Floats.
Local Open Scope float_scope.
#[local] Set Warnings "-inexact-float".

(** IEEE: a product with Infinity is never a finite number. *)
Lemma mul_infinity_not_finite (a : float) :
  Binary64.isFinite (a * infinity) = false.
Proof.
  unfold Binary64.isFinite. rewrite mul_spec.
  change (Prim2SF infinity) with (S754_infinity false).
  destruct (Prim2SF a); reflexivity.
Qed.

(** C8, amended.  The scale setter stores any value unchanged (zero,
    negative values and NaN included) and touches nothing else of the
    transform state, so the division by the current scale in
    [screenToCanvas] is unguarded.  scale > 0 is neither necessary nor
    sufficient for the quotient 1/scale to be a finite number: at
    scale = -2 it is -0.5 and [screenToCanvas((3,4))] = (-1.5,-2); at
    scale = 1e-310, which is > 0, it is Infinity and
    [screenToCanvas((3,4))] = (Infinity, Infinity).  The division by zero
    is reachable through the setter: after [scale = 0], in every state the
    quotient is Infinity and [screenToCanvas] returns no finite coordinate
    for any point. *)
Theorem scale_setter_stores_any_value :
  (forall (t : Binary64.InfiniteCanvas) (v : float),
      Binary64.get_scale (Binary64.set_scale t v) = v /\
      Binary64.get_position (Binary64.set_scale t v) = Binary64.get_position t /\
      Binary64.Props.screen_position (Binary64.__props (Binary64.set_scale t v))
        = Binary64.Props.screen_position (Binary64.__props t)) /\
  (let t := Binary64.set_scale Binary64.constructor (-2) in
   Binary64.gtb (Binary64.get_scale t) 0 = false /\
   1 / Binary64.get_scale t = -0.5 /\
   Binary64.screenToCanvas t (Binary64.Vec2.new_vec2 3 4)
     = Binary64.Vec2.new_vec2 (-1.5) (-2)) /\
  (let t := Binary64.set_scale Binary64.constructor 1e-310 in
   Binary64.gtb (Binary64.get_scale t) 0 = true /\
   1 / Binary64.get_scale t = infinity /\
   Binary64.screenToCanvas t (Binary64.Vec2.new_vec2 3 4)
     = Binary64.Vec2.new_vec2 infinity infinity) /\
  (forall (t : Binary64.InfiniteCanvas) (p : Binary64.Vec2.vec2),
      let t0 := Binary64.set_scale t 0 in
      Binary64.get_scale t0 = 0 /\
      1 / Binary64.get_scale t0 = infinity /\
      Binary64.isFinite (Binary64.Vec2.x (Binary64.screenToCanvas t0 p)) = false /\
      Binary64.isFinite (Binary64.Vec2.y (Binary64.screenToCanvas t0 p)) = false).
Proof.
  split; [|split; [|split]].
  - intros t v. repeat split.
  - cbv zeta. repeat split.
  - cbv zeta. repeat split.
  - intros t p. cbv zeta.
    split; [reflexivity | split; [reflexivity | split]];
      apply mul_infinity_not_finite.
Qed.

End ScaleSetterBinary64.

(* ================================================================== *)
(** ** The round trip (C1) *)

Section RoundTrip.

Local Open Scope number_scope.

Lemma round_trip_Qc (a o p s : Qc) :
  s <> 0%Qc -> ((a - o - p) * (1 / s) * s + o + p = a)%Qc.
Proof. intro Hs. field. assumption. Qed.

Lemma round_trip_number (a o p : number) (s : Qc) :
  finite a -> finite o -> finite p -> s <> 0%Qc ->
  (a - o - p) * (js 1 / Fin s) * Fin s + o + p = a.
Proof.
  intros [qa ->] [qo ->] [qp ->] Hs.
  unfold js. change (Q2Qc 1) with 1%Qc. rewrite div_Fin by assumption.
  simpl. f_equal. apply round_trip_Qc. assumption.
Qed.

(** With the screen origin read from [this.__props], the two conversions
    are inverse to each other in every finite state of non-zero scale. *)
Lemma round_trip_spec (t : InfiniteCanvas) (p : vec2) :
  finite_transform t -> Vec2.finite p -> get_scale t <> js 0 ->
  canvasToScreen_spec t (screenToCanvas t p) = p.
Proof.
  intros ([Hox Hoy] & [Hpx Hpy] & [s Hs]) [Hx Hy] Hnz.
  assert (Hsnz : s <> 0%Qc).
  { intro E. apply Hnz. rewrite Hs, E. reflexivity. }
  destruct p as [a b].
  unfold canvasToScreen_spec, screenToCanvas.
  unfold Vec2.scale, Vec2.sub, Vec2.add; cbn [Vec2.x Vec2.y] in *.
  rewrite Hs, !round_trip_number by assumption.
  reflexivity.
Qed.

Lemma canvasToScreen_throws (t : InfiniteCanvas) (p : vec2) :
  canvasToScreen t p = throw TypeError.
Proof. reflexivity. Qed.

(** C1 does not hold of the code.  [canvasToScreen] reads
    [this.screen_position], which is undefined (the screen origin lives in
    [this.__props.screen_position], where [screenToCanvas] reads it), so
    the call [canvasToScreen(screenToCanvas(p))] raises a TypeError in
    every state and for every point, instead of returning [p]; so it does
    for a viewport mounted at (50,20) and p = (150,120). *)
Theorem round_trip_raises :
  (forall (t : InfiniteCanvas) (p : vec2),
      canvasToScreen t (screenToCanvas t p) = throw TypeError) /\
  (let t := element (run created [Connected (bounding_box 50 20 800 600)]) in
   let p := new_vec2 (js 150) (js 120) in
   screenToCanvas t p = new_vec2 (js 100) (js 100) /\
   canvasToScreen t (screenToCanvas t p) = throw TypeError /\
   canvasToScreen_spec t (screenToCanvas t p) = p).
Proof.
  split.
  - intros. apply canvasToScreen_throws.
  - cbv zeta. repeat split;
      apply same_vec2_eq; vm_compute; reflexivity.
Qed.

End RoundTrip.

(** Two viewports, mounted at (50,20) and at (0,0): the round trip cannot
    return the point it started from in both, because the value computed
    does not depend on the screen origin. *)
Lemma round_trip_fails_for_any_add (add_undefined : vec2 -> completion vec2) :
  let t1 := connectedCallback constructor (bounding_box 50 20 800 600) in
  let t2 := connectedCallback constructor (bounding_box 0 0 800 600) in
  let p1 := new_vec2 (js 150) (js 120) in
  let p2 := new_vec2 (js 100) (js 100) in
  ~ (canvasToScreen_any add_undefined t1 (screenToCanvas t1 p1) = normal p1 /\
     canvasToScreen_any add_undefined t2 (screenToCanvas t2 p2) = normal p2).
Proof.
  cbv zeta. intros [H1 H2].
  assert (E1 : screenToCanvas
                 (connectedCallback constructor (bounding_box 50 20 800 600))
                 (new_vec2 (js 150) (js 120)) = new_vec2 (js 100) (js 100))
    by (apply same_vec2_eq; vm_compute; reflexivity).
  assert (E2 : screenToCanvas
                 (connectedCallback constructor (bounding_box 0 0 800 600))
                 (new_vec2 (js 100) (js 100)) = new_vec2 (js 100) (js 100))
    by (apply same_vec2_eq; vm_compute; reflexivity).
  rewrite E1 in H1. rewrite E2 in H2.
  unfold canvasToScreen_any in H1, H2.
  cbn [this_screen_position get_scale connectedCallback with_props with_size
       with_screen_position __props Props.scale Props.position constructor]
    in H1, H2.
  rewrite H1 in H2. injection H2. intros. discriminate.
Qed.

Lemma canvasToScreen_any_TypeError (t : InfiniteCanvas) (p : vec2) :
  canvasToScreen_any (fun _ => throw TypeError) t p = canvasToScreen t p.
Proof. reflexivity. Qed.

(* ================================================================== *)
(** ** Invariants of event sequences *)

Section SequenceInvariants.

Local Open Scope number_scope.

Lemma run_cons (h : Host) (ev : Event) (evs : list Event) :
  run h (ev :: evs) = run (step h ev) evs.
Proof. reflexivity. Qed.

Lemma run_append (h : Host) (evs evs' : list Event) :
  run h (evs ++ evs') = run (run h evs) evs'.
Proof. apply fold_left_app. Qed.

Lemma iter_update_props (n : nat) (t : InfiniteCanvas) :
  __props (Nat.iter n update t) = __props t.
Proof. induction n as [|n IH]; [reflexivity | exact IH]. Qed.

Lemma iter_update_fields (n : nat) (t : InfiniteCanvas) :
  zoomFactor (Nat.iter n update t) = zoomFactor t /\
  point (Nat.iter n update t) = point t /\
  cursor (Nat.iter n update t) = cursor t /\
  size (Nat.iter n update t) = size t.
Proof. induction n as [|n IH]; [repeat split | exact IH]. Qed.

(** One event leaves the zoom factor, the scratch [point] and
    [__props.size] as they are. *)
Lemma step_never_written (h : Host) (ev : Event) :
  zoomFactor (element (step h ev)) = zoomFactor (element h) /\
  point (element (step h ev)) = point (element h) /\
  Props.size (__props (element (step h ev))) = Props.size (__props (element h)).
Proof.
  destruct ev; simpl; try (repeat split; fail).
  - unfold customDrag_start, onstart.
    destruct target_is_this; repeat split.
  - unfold customDrag_move. destruct (dragging h); repeat split.
  - destruct (iter_update_fields (animation_frame_requests h) (element h))
      as (-> & -> & _).
    rewrite iter_update_props. repeat split.
Qed.

Lemma run_never_written (evs : list Event) : forall h : Host,
  zoomFactor (element (run h evs)) = zoomFactor (element h) /\
  point (element (run h evs)) = point (element h) /\
  Props.size (__props (element (run h evs))) = Props.size (__props (element h)).
Proof.
  induction evs as [|ev evs IH]; intro h.
  - repeat split.
  - rewrite run_cons.
    destruct (IH (step h ev)) as (-> & -> & ->).
    apply step_never_written.
Qed.

(** No handler and no setter ever writes [zoomFactor], [point] or
    [__props.size]: whatever the events, they are what they were.  In
    particular [__props.size] stays (0,0) once the element is connected:
    [connectedCallback] assigns the size to [this.size], not to
    [this.__props.size]. *)
Theorem never_written (evs : list Event) (h : Host) (b : DOMRect) :
  zoomFactor (element (run h evs)) = zoomFactor (element h) /\
  point (element (run h evs)) = point (element h) /\
  Props.size (__props (element (run h evs))) = Props.size (__props (element h)) /\
  Props.size (__props (element (run created (Connected b :: evs))))
    = new_vec2 (js 0) (js 0).
Proof.
  destruct (run_never_written evs h) as (Ez & Ep & Es).
  repeat split; try assumption.
  destruct (run_never_written (Connected b :: evs) created) as (_ & _ & ->).
  reflexivity.
Qed.

Lemma run_zoomFactor (evs : list Event) (h : Host) :
  zoomFactor (element (run h evs)) = zoomFactor (element h).
Proof.
  revert h. induction evs as [|ev evs IH]; intro h; [reflexivity|].
  rewrite run_cons, IH. apply step_never_written.
Qed.


End SequenceInvariants.

(* ================================================================== *)
(** ** The screen origin is a snapshot *)

Section Geometry.

Local Open Scope number_scope.

Lemma step_keeps_origin (h : Host) (ev : Event) :
  refreshes_origin ev = false ->
  Props.screen_position (__props (element (step h ev)))
  = Props.screen_position (__props (element h)).
Proof.
  intro Hev. destruct ev; try discriminate Hev; cbn [step]; try reflexivity.
  - cbn in Hev. subst target_is_this. reflexivity.
  - unfold customDrag_move. destruct (dragging h); reflexivity.
  - unfold animation_frame; cbn [element]. rewrite iter_update_props.
    reflexivity.
Qed.

(** Nothing but a connection or a drag start on the viewport itself ever
    changes the screen origin: not a wheel or pointer event, not a drag
    move or a vetoed drag start, not a setter.  So after a page scroll the
    wheel zooms about a displaced anchor until one of the two happens. *)
Theorem origin_changes_only_on_refresh (evs : list Event) : forall h : Host,
  Forall (fun ev => refreshes_origin ev = false) evs ->
  Props.screen_position (__props (element (run h evs)))
  = Props.screen_position (__props (element h)).
Proof.
  induction evs as [|ev evs IH]; intros h Hall; [reflexivity|].
  inversion Hall as [|? ? Hev Hevs]; subst.
  rewrite run_cons, (IH _ Hevs). apply step_keeps_origin. exact Hev.
Qed.

Lemma origin_changes_only_on_refresh_witness :
  let h := step created (Connected (bounding_box 50 20 800 600)) in
  Props.screen_position
    (__props (element (run h [Wheel (js 150) (js 420) (js 100);
                              DragStart false (bounding_box 50 320 800 600);
                              DragMove (js 3) (js 4);
                              PointerMove (js 1) (js 2);
                              SetPosition (js 5) (js 5);
                              AnimationFrame])))
  = new_vec2 (js 50) (js 20).
Proof.
  cbv zeta.
  rewrite (@origin_changes_only_on_refresh
             [Wheel (js 150) (js 420) (js 100);
              DragStart false (bounding_box 50 320 800 600);
              DragMove (js 3) (js 4);
              PointerMove (js 1) (js 2);
              SetPosition (js 5) (js 5);
              AnimationFrame]
             (step created (Connected (bounding_box 50 20 800 600)))).
  - reflexivity.
  - repeat constructor.
Defined.

End Geometry.

(* ================================================================== *)
(** ** The clamp at the floor *)

Section ZoomRoundTrip.

Local Open Scope number_scope.




End ZoomRoundTrip.

(* ================================================================== *)
(** ** After a division by zero *)

Section DivisionByZero.

Local Open Scope number_scope.







End DivisionByZero.

(* ================================================================== *)
(** ** The cursor field is write-only; rendering; whole gestures *)

Section Rendering.

Local Open Scope number_scope.

(** [n] runs of [update] append [n] copies of the current transform. *)
Lemma iter_update_eq (n : nat) (t : InfiniteCanvas) :
  Nat.iter n update t
  = with_cssText t (canvas_style_cssText t ++ repeat (current_transform t) n).
Proof.
  induction n as [|n IH].
  - cbn [Nat.iter repeat]. rewrite app_nil_r. destruct t; reflexivity.
  - change (Nat.iter (S n) update t) with (update (Nat.iter n update t)).
    rewrite IH. unfold update, with_cssText.
    cbn [__props point cursor zoomFactor size canvas_style_cssText].
    f_equal. rewrite <- app_assoc. f_equal.
    change (current_transform _ :: nil) with [current_transform t].
    rewrite <- repeat_cons. reflexivity.
Qed.

Lemma erase_cursor_step (h1 h2 : Host) (ev : Event) :
  erase_cursor h1 = erase_cursor h2 ->
  erase_cursor (step h1 ev) = erase_cursor (step h2 ev).
Proof.
  destruct h1 as [[pr1 pt1 c1 z1 sz1 css1] n1 d1].
  destruct h2 as [[pr2 pt2 c2 z2 sz2 css2] n2 d2].
  unfold erase_cursor, with_element, with_cursor; cbn [element
    animation_frame_requests dragging __props point zoomFactor size
    canvas_style_cssText].
  intros [= -> -> -> -> -> -> ->].
  destruct ev; cbn [step]; try reflexivity.
  - unfold customDrag_start, onstart. destruct target_is_this; reflexivity.
  - unfold customDrag_move; cbn [dragging]. destruct d2; reflexivity.
  - unfold animation_frame; cbn [element animation_frame_requests dragging].
    rewrite !iter_update_eq. reflexivity.
Qed.

Lemma erase_cursor_run (evs : list Event) : forall h1 h2 : Host,
  erase_cursor h1 = erase_cursor h2 ->
  erase_cursor (run h1 evs) = erase_cursor (run h2 evs).
Proof.
  induction evs as [|ev evs IH]; intros h1 h2 E; [exact E|].
  rewrite !run_cons. apply IH, erase_cursor_step, E.
Qed.

(** The content of [cursor] is never read before it is overwritten: two
    hosts that differ only in [cursor] differ only in [cursor] after any
    sequence of events, and dropping the pointermove events from a
    sequence changes nothing but [cursor].  The transform state, what is
    rendered and the gesture state do not depend on where the pointer was
    last seen. *)
Theorem cursor_is_never_read (evs : list Event) (h : Host) (c : vec2) :
  erase_cursor (run (with_element h (with_cursor (element h) c)) evs)
    = erase_cursor (run h evs) /\
  erase_cursor (run h (filter (fun ev => negb (is_PointerMove ev)) evs))
    = erase_cursor (run h evs).
Proof.
  split.
  - apply erase_cursor_run. reflexivity.
  - revert h. induction evs as [|ev evs IH]; intro h; [reflexivity|].
    cbn [filter]. destruct (is_PointerMove ev) eqn:E; cbn [negb].
    + rewrite run_cons, IH. apply erase_cursor_run.
      destruct ev; try discriminate E. reflexivity.
    + rewrite !run_cons. apply IH.
Qed.

Lemma displayed_update (t : InfiniteCanvas) :
  displayed (update t) = current_transform (update t).
Proof.
  unfold displayed, update, with_cssText; cbn [canvas_style_cssText].
  apply last_last.
Qed.

Lemma step_render_sync (h : Host) (ev : Event) :
  (animation_frame_requests h = 0%nat ->
   displayed (element h) = current_transform (element h)) ->
  animation_frame_requests (step h ev) = 0%nat ->
  displayed (element (step h ev)) = current_transform (element (step h ev)).
Proof.
  intros J.
  destruct ev; cbn [step with_element element animation_frame_requests].
  - exact J.
  - unfold customDrag_start, onstart.
    destruct target_is_this; exact J.
  - unfold customDrag_move. destruct (dragging h); [|exact J].
    cbn [onmove animation_frame_requests]. discriminate.
  - exact J.
  - exact J.
  - intros _. apply displayed_update.
  - intros _. apply displayed_update.
  - intros _. apply displayed_update.
  - intros _. unfold animation_frame; cbn [element].
    destruct (animation_frame_requests h) as [|n] eqn:En.
    + apply J. reflexivity.
    + change (Nat.iter (S n) update (element h))
        with (update (Nat.iter n update (element h))).
      apply displayed_update.
Qed.

(** No visual update is lost.  In every state reached from construction
    in which no animation-frame callback is pending, the transform in
    effect on the canvas layer is the one of the current pan offset and
    scale.  (While a callback is pending, after a drag move, the layer
    lags behind.) *)
Theorem render_in_sync (evs : list Event) :
  animation_frame_requests (run created evs) = 0%nat ->
  displayed (element (run created evs))
  = current_transform (element (run created evs)).
Proof.
  assert (H : forall h,
             (animation_frame_requests h = 0%nat ->
              displayed (element h) = current_transform (element h)) ->
             animation_frame_requests (run h evs) = 0%nat ->
             displayed (element (run h evs))
             = current_transform (element (run h evs))).
  { induction evs as [|ev evs IH]; intros h J; [exact J|].
    rewrite run_cons. apply IH. apply step_render_sync. exact J. }
  apply H. reflexivity.
Qed.

Lemma render_in_sync_witness :
  let evs := [Connected (bounding_box 50 20 800 600);
              DragStart true (bounding_box 50 20 800 600);
              DragMove (js 3) (js 4); DragMove (js (-1)) (js 2);
              AnimationFrame] in
  displayed (element (run created evs))
  = current_transform (element (run created evs)).
Proof.
  cbv zeta. apply render_in_sync. reflexivity.
Defined.

End Rendering.

(* ================================================================== *)
(** ** The direction of a zoom step *)

Section ZoomSteps.

Local Open Scope number_scope.







End ZoomSteps.

(* ================================================================== *)
(** ** The floor along every event sequence, in binary64 *)

Section ScaleFloorBinary64.

Import Floats.
Local Open Scope float_scope.
#[local] Set Warnings "-inexact-float".

Lemma SFltb_asym (a b : spec_float) : SFltb a b = true -> SFltb b a = false.
Proof.
  unfold SFltb, SFcompare.
  destruct a as [[]|[]| |[] ma ea], b as [[]|[]| |[] mb eb];
    try reflexivity; try discriminate;
    rewrite (Z.compare_antisym ea eb), (ZC4 mb ma);
    destruct (ea ?= eb)%Z; cbn; try reflexivity; try discriminate;
    destruct (Pos.compare_cont Eq ma mb); cbn; try reflexivity; discriminate.
Qed.

Lemma ltb_asym (a b : float) : (a <? b) = true -> (b <? a) = false.
Proof. rewrite !ltb_spec. apply SFltb_asym. Qed.

(** [Math.max(0.1, b) < 0.1] is false for every [b], NaN and the
    infinities included. *)
Lemma Math_max_floor (b : float) : (Binary64.Math_max 0.1 b <? 0.1) = false.
Proof.
  unfold Binary64.Math_max.
  change (is_nan 0.1) with false. cbn [orb].
  destruct (is_nan b); [reflexivity|].
  destruct (0.1 <? b) eqn:E1; [apply ltb_asym; exact E1|].
  destruct (b <? 0.1) eqn:E2; reflexivity.
Qed.

Lemma wheel_scale_not_below (t : Binary64.InfiniteCanvas) (cx cy deltaY : float) :
  (Binary64.get_scale (Binary64.wheel t cx cy deltaY) <? 0.1) = false.
Proof.
  change (Binary64.get_scale (Binary64.wheel t cx cy deltaY))
    with (Binary64.Math_max 0.1
            (Binary64.get_scale t * Binary64.direction t deltaY)).
  apply Math_max_floor.
Qed.

Lemma iter_update_scale (n : nat) (t : Binary64.InfiniteCanvas) :
  Binary64.get_scale (Nat.iter n Binary64.update t) = Binary64.get_scale t.
Proof. induction n as [|n IH]; [reflexivity | exact IH]. Qed.

Lemma step_scale_not_below (h : Binary64.Host) (ev : Binary64.Event) :
  Binary64.is_SetScale ev = false ->
  (Binary64.get_scale (Binary64.element h) <? 0.1) = false ->
  (Binary64.get_scale (Binary64.element (Binary64.step h ev)) <? 0.1) = false.
Proof.
  intros Hev Hs.
  destruct ev as [b|target b|dx dy| |cx cy|cx cy dy|v|x y| ]; cbn in Hev;
    try discriminate Hev.
  - exact Hs.
  - destruct target; exact Hs.
  - unfold Binary64.step, Binary64.customDrag_move.
    destruct (Binary64.dragging h); exact Hs.
  - exact Hs.
  - exact Hs.
  - apply wheel_scale_not_below.
  - exact Hs.
  - unfold Binary64.step, Binary64.animation_frame.
    cbn [Binary64.element]. rewrite iter_update_scale. exact Hs.
Qed.

(** X2.  Only an assignment to [scale] can take the scale below the floor:
    in binary64, from every state whose scale is not below 0.1, after every
    sequence of events without such an assignment (mounts, gestures,
    pointer moves, wheel events in either direction with any zoom factor,
    assignments to [position], animation frames) the comparison
    [scale < 0.1] is still false. *)
Theorem scale_never_below_floor
  (evs : list Binary64.Event) (h : Binary64.Host) :
  (Binary64.get_scale (Binary64.element h) <? 0.1) = false ->
  Forall (fun ev => Binary64.is_SetScale ev = false) evs ->
  (Binary64.get_scale (Binary64.element (Binary64.run h evs)) <? 0.1) = false.
Proof.
  intros Hs Hevs. revert h Hs.
  induction Hevs as [|ev evs Hev _ IH]; intros h Hs.
  - exact Hs.
  - change (Binary64.run h (ev :: evs))
      with (Binary64.run (Binary64.step h ev) evs).
    apply IH, step_scale_not_below; assumption.
Qed.

(** From construction: a mount, thirty zoom-out wheel events, then events
    of every other kind but an assignment to [scale]; the scale ends at
    the floor. *)
Lemma scale_never_below_floor_witness :
  let b := {| Binary64.left := 50; Binary64.top := 20;
              Binary64.width := 800; Binary64.height := 600 |} in
  let evs := Binary64.Connected b
             :: repeat (Binary64.Wheel 150 120 100) 30
             ++ [Binary64.DragStart true b;
                 Binary64.DragMove 3 4;
                 Binary64.DragEnd;
                 Binary64.SetPosition 1e308 0;
                 Binary64.Wheel 150 120 100;
                 Binary64.PointerMove 1 2;
                 Binary64.AnimationFrame] in
  Binary64.get_scale (Binary64.element (Binary64.run Binary64.created evs))
    = 0.1 /\
  (Binary64.get_scale (Binary64.element (Binary64.run Binary64.created evs))
     <? 0.1) = false.
Proof.
  cbv zeta. split; [vm_compute; reflexivity|].
  apply scale_never_below_floor.
  - reflexivity.
  - cbn [repeat app]. repeat constructor.
Defined.

End ScaleFloorBinary64.

(* ================================================================== *)
(** ** A complete drag gesture, in binary64 *)

Section GestureBinary64.

Import Floats.
Local Open Scope float_scope.
#[local] Set Warnings "-inexact-float".

Lemma run_drag_moves_active (moves : list (float * float)) :
  forall h : Binary64.Host,
  Binary64.dragging h = true ->
  let h' := Binary64.run h (Binary64.drag_moves moves) in
  Binary64.dragging h' = true /\
  Binary64.get_position (Binary64.element h')
    = Binary64.translated (Binary64.get_position (Binary64.element h)) moves /\
  Binary64.get_scale (Binary64.element h')
    = Binary64.get_scale (Binary64.element h) /\
  Binary64.Props.screen_position (Binary64.__props (Binary64.element h'))
    = Binary64.Props.screen_position (Binary64.__props (Binary64.element h)) /\
  Binary64.animation_frame_requests h'
    = (Binary64.animation_frame_requests h + length moves)%nat.
Proof.
  induction moves as [|[dx dy] moves IH]; intros h Hd; cbv zeta.
  - cbn [Binary64.drag_moves map Binary64.run fold_left length
         Binary64.translated].
    rewrite Nat.add_0_r. repeat split. exact Hd.
  - change (Binary64.run h (Binary64.drag_moves ((dx, dy) :: moves)))
      with (Binary64.run (Binary64.step h (Binary64.DragMove dx dy))
              (Binary64.drag_moves moves)).
    assert (E : Binary64.step h (Binary64.DragMove dx dy)
                = Binary64.onmove h dx dy).
    { unfold Binary64.step, Binary64.customDrag_move. rewrite Hd. reflexivity. }
    rewrite E.
    destruct (IH (Binary64.onmove h dx dy) Hd) as (H1 & H2 & H3 & H4 & H5).
    repeat split.
    + exact H1.
    + rewrite H2. reflexivity.
    + rewrite H3. reflexivity.
    + rewrite H4. reflexivity.
    + rewrite H5.
      cbn [Binary64.onmove Binary64.animation_frame_requests length].
      lia.
Qed.

Lemma run_drag_moves_idle (moves : list (float * float)) (h : Binary64.Host) :
  Binary64.dragging h = false ->
  Binary64.run h (Binary64.drag_moves moves) = h.
Proof.
  intro Hd. induction moves as [|[dx dy] moves IH]; [reflexivity|].
  change (Binary64.run h (Binary64.drag_moves ((dx, dy) :: moves)))
    with (Binary64.run (Binary64.step h (Binary64.DragMove dx dy))
            (Binary64.drag_moves moves)).
  unfold Binary64.step, Binary64.customDrag_move. rewrite Hd. exact IH.
Qed.

Lemma run_app (h : Binary64.Host) (evs evs' : list Binary64.Event) :
  Binary64.run h (evs ++ evs') = Binary64.run (Binary64.run h evs) evs'.
Proof. apply fold_left_app. Qed.

(** X12.  A complete gesture on the viewport itself, in binary64: a drag
    start that is allowed, any number of moves, the end.  Afterwards the
    pan offset is the old one with the deltas added move by move, in the
    order of the moves and each addition rounded (so (0.1,0) and then
    (0.2,0) from (0,0) give 0.30000000000000004); the scale is the old
    one; the screen origin is the top left corner of the bounding box read
    at the start; one animation-frame callback per move has been queued;
    the gesture is closed, so that moves delivered later change nothing. *)
Theorem gesture_adds_move_by_move
  (h : Binary64.Host) (b : Binary64.DOMRect) (moves : list (float * float)) :
  let h' := Binary64.run h
              (Binary64.DragStart true b
                 :: Binary64.drag_moves moves ++ [Binary64.DragEnd]) in
  Binary64.get_position (Binary64.element h')
    = Binary64.translated (Binary64.get_position (Binary64.element h)) moves /\
  Binary64.get_scale (Binary64.element h')
    = Binary64.get_scale (Binary64.element h) /\
  Binary64.Props.screen_position (Binary64.__props (Binary64.element h'))
    = Binary64.Vec2.new_vec2 (Binary64.left b) (Binary64.top b) /\
  Binary64.animation_frame_requests h'
    = (Binary64.animation_frame_requests h + length moves)%nat /\
  Binary64.dragging h' = false /\
  (forall later : list (float * float),
      Binary64.run h' (Binary64.drag_moves later) = h') /\
  Binary64.get_position
    (Binary64.element
       (Binary64.run Binary64.created
          (Binary64.DragStart true b
             :: Binary64.drag_moves [(0.1, 0); (0.2, 0)] ++ [Binary64.DragEnd])))
    = Binary64.Vec2.new_vec2 0.30000000000000004 0.
Proof.
  cbv zeta.
  change (Binary64.run h
            (Binary64.DragStart true b
               :: Binary64.drag_moves moves ++ [Binary64.DragEnd]))
    with (Binary64.run (Binary64.step h (Binary64.DragStart true b))
            (Binary64.drag_moves moves ++ [Binary64.DragEnd])).
  set (h0 := Binary64.step h (Binary64.DragStart true b)).
  rewrite run_app.
  destruct (@run_drag_moves_active moves h0 eq_refl) as (H1 & H2 & H3 & H4 & H5).
  set (h1 := Binary64.run h0 (Binary64.drag_moves moves)) in *.
  cbn [Binary64.run fold_left Binary64.step Binary64.customDrag_end
       Binary64.element Binary64.animation_frame_requests Binary64.dragging].
  repeat split.
  - exact H2.
  - exact H3.
  - exact H4.
  - exact H5.
  - intro later. apply run_drag_moves_idle. reflexivity.
Qed.

End GestureBinary64.
